(** * Kokoro TTS demo: the inference service (app.py) and the weight
    fetcher (download_weights.py)

    Both scripts are thin wrappers around external libraries (kokoro,
    gradio, huggingface_hub, python-dotenv).  The wrappers are embedded as
    state-passing programs that may raise; the libraries they call are
    parameters of the development, so that every statement about a wrapper
    holds for whatever the library does. *)

From Stdlib Require Import ZArith.
From stdpp Require Import gmap strings list pretty.

Local Open Scope Z_scope.
Local Open Scope string_scope.

(** ** The fragment of Python both scripts rely on *)

Module Py.

(** Exception classes.  The first four derive from [Exception]; the last
    two derive from [BaseException] only, like [SystemExit] below. *)
Inductive ExcClass : Type :=
| StopIteration
| NameError
| GradioError                    (* gr.Error *)
| LibraryError (name : string)   (* any other class below Exception *)
| KeyboardInterrupt
| GeneratorExit.

Inductive PyExc : Type :=
| Exc (cls : ExcClass) (message : string)
| SystemExit (code : Z).

(** [isinstance(e, Exception)], what [except Exception] tests. *)
Definition isinstance_Exception (e : PyExc) : bool :=
  match e with
  | Exc (KeyboardInterrupt | GeneratorExit) _ => false
  | Exc _ _ => true
  | SystemExit _ => false
  end.

(** [str(e)], also what an f-string writes for [{e}]. *)
Definition str (e : PyExc) : string :=
  match e with
  | Exc _ m => m
  | SystemExit c => pretty c
  end.

(** How a call ends: it returns a value or an exception leaves it. *)
Inductive Res (A : Type) : Type :=
| Ok (a : A)
| Raise (e : PyExc).
Arguments Ok {A} a.
Arguments Raise {A} e.

(** A process: what was printed, the environment variables, the module's
    global variables, and the state [X] of everything outside the script
    (model weights, network, disk). *)
Record World (G X : Type) : Type := mkWorld {
  console : list string;
  environ : gmap string string;
  globals : G;
  ext : X
}.
Arguments mkWorld {G X}.
Arguments console {G X}.
Arguments environ {G X}.
Arguments globals {G X}.
Arguments ext {G X}.

Definition with_console {G X} (w : World G X) (c : list string) : World G X :=
  mkWorld c (environ w) (globals w) (ext w).

Definition with_ext {G X} (w : World G X) (x : X) : World G X :=
  mkWorld (console w) (environ w) (globals w) x.

Definition M (S A : Type) : Type := S -> Res A * S.

Definition ret {S A} (a : A) : M S A := fun s => (Ok a, s).

Definition bind {S A B} (c : M S A) (k : A -> M S B) : M S B :=
  fun s =>
    match c s with
    | (Ok a, s') => k a s'
    | (Raise e, s') => (Raise e, s')
    end.

Definition raise {S A} (e : PyExc) : M S A := fun s => (Raise e, s).

(** [try: body  except Exception as e: handler e] *)
Definition try_except {S A} (body : M S A) (handler : PyExc -> M S A) : M S A :=
  fun s =>
    match body s with
    | (Ok a, s') => (Ok a, s')
    | (Raise e, s') =>
        if isinstance_Exception e then handler e s' else (Raise e, s')
    end.

Declare Scope py_scope.
Delimit Scope py_scope with py.
Notation "x <- c1 ;; c2" := (bind c1 (fun x => c2))
  (at level 100, c1 at next level, right associativity) : py_scope.
Notation "c1 ;; c2" := (bind c1 (fun _ => c2))
  (at level 100, right associativity) : py_scope.

Section Builtins.
Context {G X : Type}.

(** [print(line)]: one more line on the console. *)
Definition print (line : string) : M (World G X) unit :=
  fun w => (Ok tt, with_console w (console w ++ [line])).

(** [sys.exit(code)] *)
Definition sys_exit {A} (code : Z) : M (World G X) A := raise (SystemExit code).

Definition get_globals : M (World G X) G := fun w => (Ok (globals w), w).

Definition set_globals (g : G) : M (World G X) unit :=
  fun w => (Ok tt, mkWorld (console w) (environ w) g (ext w)).

Definition get_environ : M (World G X) (gmap string string) :=
  fun w => (Ok (environ w), w).

Definition set_environ (e : gmap string string) : M (World G X) unit :=
  fun w => (Ok tt, mkWorld (console w) e (globals w) (ext w)).

(** A call into a library: it sees and changes only the outside state. *)
Definition extern {A} (f : X -> Res A * X) : M (World G X) A :=
  fun w => let '(r, x') := f (ext w) in (r, with_ext w x').
End Builtins.

(** Truth value of an optional string: [None] and the empty string are false. *)
Definition truthy (v : option string) : bool :=
  match v with
  | None => false
  | Some s => negb (String.eqb s EmptyString)
  end.

(** [a or b] *)
Definition py_or (a b : option string) : option string :=
  if truthy a then a else b.

(** [sub in s] *)
Definition contains (s sub : string) : Prop :=
  exists pre post, s = pre +:+ sub +:+ post.

(** How the interpreter ends when the main module finishes with [r]. *)
Inductive ProcessEnd : Type :=
| Exit (status : Z)
| Traceback (e : PyExc).   (* uncaught exception: traceback, status not 0 *)

Definition process_end {A} (r : Res A) : ProcessEnd :=
  match r with
  | Ok _ => Exit 0
  | Raise (SystemExit c) => Exit c
  | Raise e => Traceback e
  end.

End Py.

Import Py.
Local Open Scope py_scope.

(** ** app.py: the inference service *)

Module App.

(** [device]: [None] until the module has assigned it. *)
Record Globals (Handle : Type) : Type := mkGlobals {
  device : option string;
  pipeline : option Handle
}.
Arguments mkGlobals {Handle}.
Arguments device {Handle}.
Arguments pipeline {Handle}.

(** What one [next] on a generator does: it yields an item and stays
    suspended as [rest], finishes, or an exception leaves its body. *)
Inductive Step (Item Gen : Type) : Type :=
| Yield (item : Item) (rest : Gen)
| Finish
| Throw (e : PyExc).
Arguments Yield {Item Gen} item rest.
Arguments Finish {Item Gen}.
Arguments Throw {Item Gen} e.

(** A generator object: its body runs only when it is resumed, and then
    against the state [X] of the library that made it. *)
#[local] Unset Elimination Schemes.
Inductive Generator (X Item : Type) : Type :=
| Gen (resume : X -> Step Item (Generator X Item) * X).
#[local] Set Elimination Schemes.
Arguments Gen {X Item} resume.

Definition resume {X Item} (g : Generator X Item)
  : X -> Step Item (Generator X Item) * X :=
  match g with Gen r => r end.

(** [next(g)]: an exhausted generator raises [StopIteration], whose [str]
    is empty. *)
Definition next {G X Item} (g : Generator X Item) : M (World G X) Item :=
  extern (fun x =>
    match resume g x with
    | (Yield item _, x') => (Ok item, x')
    | (Finish, x') => (Raise (Exc StopIteration EmptyString), x')
    | (Throw e, x') => (Raise e, x')
    end).

Section Service.
(** The kokoro and torch libraries. *)
Variable X : Type.           (* their state: weights, caches, device *)
Variable Handle : Type.      (* a KPipeline object *)
Variable Audio : Type.       (* a tensor of samples *)

(** The pipeline yields results that unpack to graphemes, phonemes and
    audio. *)
Local Abbreviation Segment := (string * string * Audio)%type.

Variable cuda_is_available : X -> bool.
Variable KPipeline : string -> X -> Res Handle * X.
Variable KPipeline_call :
  Handle -> string -> string -> Z -> X -> Res (Generator X Segment) * X.

Definition St : Type := World (Globals Handle) X.

(** Reading the global [pipeline]; unbound, it is a [NameError]. *)
Definition read_pipeline : M St Handle :=
  g <- get_globals ;;
  match pipeline g with
  | Some p => ret p
  | None => raise (Exc NameError "name 'pipeline' is not defined")
  end.

(** The body of the [try] in [generate_speech]. *)
Definition first_segment (text : string) : M St (Z * Audio) :=
  p <- read_pipeline ;;
  generator <- extern (KPipeline_call p text "af_heart" 1) ;;
  item <- next generator ;;
  let '(_, _, audio) := item in
  ret (24000, audio).

Definition generate_speech (text : string) : M St (Z * Audio) :=
  try_except
    (first_segment text)
    (fun e =>
       print ("Error generating speech: " +:+ str e) ;;
       raise (Exc GradioError ("Failed to generate speech: " +:+ str e))).

(** [str(torch.device("cuda" if torch.cuda.is_available() else "cpu"))] *)
Definition torch_device (x : X) : string :=
  if cuda_is_available x then "cuda" else "cpu".

Definition set_device (d : string) : M St unit :=
  g <- get_globals ;; set_globals (mkGlobals (Some d) (pipeline g)).

Definition set_pipeline (p : Handle) : M St unit :=
  g <- get_globals ;; set_globals (mkGlobals (device g) (Some p)).

(** The module body down to the [try] that builds the pipeline.  The
    call of [load_dotenv] before it only adds environment variables,
    which nothing below reads. *)
Definition startup : M St unit :=
  d <- extern (fun x => (Ok (torch_device x), x)) ;;
  set_device d ;;
  print ("Using device: " +:+ d) ;;
  try_except
    (print "Loading Kokoro TTS model..." ;;
     p <- extern (KPipeline "en") ;;
     set_pipeline p ;;
     print "Model loaded successfully!")
    (fun e =>
       print ("Error loading model: " +:+ str e) ;;
       sys_exit 1).

(** What the form shows for one request. *)
Inductive Response : Type :=
| AudioOut (sample_rate : Z) (audio : Audio)
| ErrorShown (message : string).

(** Modelled from the spec: [demo.launch] is gradio's, not part of this
    repository.  The interface layer calls [fn] once per request, shows
    the audio it returns, and shows an error it raises to the user
    without ending the process.  An exception that is not an [Exception]
    ends the loop.  The result is the responses sent, the exception that
    ended the loop if one did, and the final state. *)
Fixpoint launch (fn : string -> M St (Z * Audio)) (requests : list string)
    (w : St) : list Response * option PyExc * St :=
  match requests with
  | [] => ([], None, w)
  | text :: later =>
      match fn text w with
      | (Ok (rate, audio), w') =>
          let '(out, stop, w'') := launch fn later w' in
          (AudioOut rate audio :: out, stop, w'')
      | (Raise e, w') =>
          if isinstance_Exception e then
            let '(out, stop, w'') := launch fn later w' in
            (ErrorShown (str e) :: out, stop, w'')
          else ([], Some e, w')
      end
  end.

(** One run of the process on the requests that reach it.  [ending] is
    [None] while the server is still up after the last of them. *)
Record Run : Type := mkRun {
  ending : option ProcessEnd;
  printed : list string;
  served : list Response
}.

Definition run_app (requests : list string) (w : St) : Run :=
  match startup w with
  | (Ok _, w1) =>
      let '(out, stop, w2) := launch generate_speech requests w1 in
      mkRun (option_map (fun e => process_end (@Raise unit e)) stop)
            (console w2) out
  | (Raise e, w1) => mkRun (Some (process_end (@Raise unit e))) (console w1) []
  end.

(** The state after a sequence of requests, whatever their results. *)
Definition after_requests (requests : list string) (w : St) : St :=
  fold_left (fun w text => snd (generate_speech text w)) requests w.

(** The pipeline call and the first [next] leave the library state as
    they found it. *)
Definition handle_read_only : Prop :=
  forall p text x,
    match KPipeline_call p text "af_heart" 1 x with
    | (Ok g, x1) => x1 = x /\ snd (resume g x1) = x1
    | (Raise _, x1) => x1 = x
    end.

End Service.

Abbreviation Segment Audio := (string * string * Audio)%type.

Arguments read_pipeline {X Handle}.
Arguments first_segment {X Handle Audio} KPipeline_call text.
Arguments generate_speech {X Handle Audio} KPipeline_call text.
Arguments torch_device {X} cuda_is_available x.
Arguments startup {X Handle} cuda_is_available KPipeline.
Arguments AudioOut {Audio} sample_rate audio.
Arguments ErrorShown {Audio} message.
Arguments launch {X Handle Audio} fn requests w.
Arguments mkRun {Audio}.
Arguments ending {Audio}.
Arguments printed {Audio}.
Arguments served {Audio}.
Arguments run_app {X Handle Audio} cuda_is_available KPipeline KPipeline_call.
Arguments after_requests {X Handle Audio} KPipeline_call.
Arguments handle_read_only {X Handle Audio} KPipeline_call.

End App.

(** ** download_weights.py: the weight fetcher *)

Module DownloadWeights.

Definition HUGGING_FACE_TOKEN : string := "HUGGING_FACE_TOKEN".
Definition HUGGING_FACE_HUB_TOKEN : string := "HUGGING_FACE_HUB_TOKEN".

(** Line 40: [args.token or os.environ.get(..) or os.environ.get(..)]. *)
Definition token_of (args_token : option string) (env : gmap string string)
  : option string :=
  py_or args_token
    (py_or (env !! HUGGING_FACE_TOKEN) (env !! HUGGING_FACE_HUB_TOKEN)).

(** The precedence as the comment above line 40 and the specification give
    it: the command line, then the .env file, then the environment of the
    process, either of the last two under the two names. *)
Definition token_by_source (args_token : option string)
    (file env : gmap string string) : option string :=
  py_or args_token
    (py_or (py_or (file !! HUGGING_FACE_TOKEN) (file !! HUGGING_FACE_HUB_TOKEN))
           (py_or (env !! HUGGING_FACE_TOKEN) (env !! HUGGING_FACE_HUB_TOKEN))).

Section Fetch.
(** huggingface_hub and python-dotenv, and what they work on. *)
Variable X : Type.                                (* hub, network, disk *)
Variable dotenv_values : X -> gmap string string. (* the .env file, parsed *)
Variable snapshot_download :
  string -> string -> option string -> X -> Res string * X.

Definition St : Type := World unit X.

Definition MODEL_ID : string := "hexgrad/Kokoro-82M".

(** The function has no [return]: its value is [None], here [tt]. *)
Definition download_model_weights (token : option string) : M St unit :=
  print ("Downloading Kokoro TTS model weights from " +:+ MODEL_ID +:+ "...") ;;
  try_except
    (_ <- extern (snapshot_download MODEL_ID "./weights" token) ;;
     print "Model weights downloaded successfully!")
    (fun e =>
       print ("Error downloading model weights: " +:+ str e) ;;
       print (String (Ascii.ascii_of_nat 10) "Please make sure your Hugging Face token is correct.") ;;
       print "You can get a token from: https://huggingface.co/settings/tokens").

(** python-dotenv's [load_dotenv(override=...)]: every variable of the
    .env file is put into [os.environ]; one that the process already has
    keeps its value unless [override] is set.  The file is taken to be
    readable: an error while it is opened or decoded is not modelled. *)
Definition load_dotenv (override : bool) : M St unit :=
  fun w =>
    let file := dotenv_values (ext w) in
    set_environ (if override then file ∪ environ w else environ w ∪ file) w.

(** The [__main__] block; [args_token] is [args.token] as argparse left
    it: [None] without the flag. *)
Definition main (args_token : option string) : M St unit :=
  load_dotenv false ;;
  env <- get_environ ;;
  let token := token_of args_token env in
  download_model_weights token.

(** The download raises an [Exception] from this state. *)
Definition download_fails (token : option string) (w : St) : Prop :=
  exists e x', snapshot_download MODEL_ID "./weights" token (ext w) = (Raise e, x')
               /\ isinstance_Exception e = true.

Definition download_succeeds (token : option string) (w : St) : Prop :=
  exists path x', snapshot_download MODEL_ID "./weights" token (ext w) = (Ok path, x').

(** The caller can tell a failed fetch from a successful one by what the
    call gives back. *)
Definition signals_outcome : Prop :=
  forall t1 w1 t2 w2,
    download_fails t1 w1 -> download_succeeds t2 w2 ->
    fst (download_model_weights t1 w1) <> fst (download_model_weights t2 w2).

End Fetch.

Arguments download_model_weights {X} snapshot_download token.
Arguments load_dotenv {X} dotenv_values override.
Arguments main {X} dotenv_values snapshot_download args_token.
Arguments download_fails {X} snapshot_download token w.
Arguments download_succeeds {X} snapshot_download token w.
Arguments signals_outcome {X} snapshot_download.

(** *** A hub and a disk *)

(** A directory maps file names to contents. *)
Record Store : Type := mkStore {
dotenv : gmap string string;               (* the bindings of ./.env *)
hub : gmap string (gmap string string);    (* repository id -> its files *)
hub_token : option string;                 (* the token the hub asks for *)
writable : bool;
disk : gmap string (gmap string string)    (* local directory -> its files *)
}.

Definition authorised (st : Store) (token : option string) : bool :=
match hub_token st with
| None => true
| Some t => bool_decide (token = Some t)
end.

(** Modelled from the spec: [snapshot_download] is huggingface_hub's, not
  part of this repository.  It downloads the complete file set of the
  identifier into the destination, overwriting or merging with what is
  there (a mirror, not an append), and fails as a whole on an invalid
  identifier, a refused token or a disk that cannot be written. *)
Definition mirror_snapshot_download (repo_id local_dir : string)
  (token : option string) (st : Store) : Res string * Store :=
match hub st !! repo_id with
| None =>
    (Raise (Exc (LibraryError "RepositoryNotFoundError") "404 Client Error"), st)
| Some files =>
    if negb (authorised st token) then
      (Raise (Exc (LibraryError "HfHubHTTPError") "401 Client Error"), st)
    else if negb (writable st) then
      (Raise (Exc (LibraryError "PermissionError") "Permission denied"), st)
    else
      (Ok local_dir,
       mkStore (dotenv st) (hub st) (hub_token st) (writable st)
         (<[local_dir := files ∪ default ∅ (disk st !! local_dir)]> (disk st)))
end.

End DownloadWeights.

(** ** A small pipeline to run the service on *)

Module Bench.
Import App.

(** What the library was asked to do, in order. *)
Inductive Event : Type :=
| Called (text voice : string) (speed : Z)
| Produced (graphemes : string).

Definition Audio : Type := list Z.

Fixpoint gen_of (spy : bool) (segs : list (string * string * Audio))
: Generator (list Event) (string * string * Audio) :=
match segs with
| [] => Gen (fun x => (Finish, x))
| seg :: later =>
    Gen (fun x => (Yield seg (gen_of spy later),
                   if spy then (x ++ [Produced seg.1.1])%list else x))
end.

(** No segment for the empty text, two for any other. *)
Definition segments (text voice : string) (speed : Z)
: list (string * string * Audio) :=
if String.eqb text EmptyString then []
else [(text, voice, [speed; 2; 3]); ("more", voice, [4])].

Definition KPipeline (lang_code : string) (x : list Event) : Res unit * list Event :=
if String.eqb lang_code "en" then (Ok tt, x)
else (Raise (Exc (LibraryError "AssertionError") lang_code), x).

Definition KPipeline_broken (lang_code : string) (x : list Event)
: Res unit * list Event :=
(Raise (Exc (LibraryError "RuntimeError") "no weights"), x).

(** Texts that start with an exclamation mark make the model fail. *)
Definition KPipeline_call (spy : bool) (p : unit) (text voice : string)
  (speed : Z) (x : list Event)
: Res (Generator (list Event) (string * string * Audio)) * list Event :=
if String.prefix "!" text then
  (Raise (Exc (LibraryError "RuntimeError") "model error"), x)
else
  (Ok (gen_of spy (segments text voice speed)),
   if spy then (x ++ [Called text voice speed])%list else x).

(** The same pipeline, except that it knows no other voice. *)
Definition KPipeline_call_one_voice (spy : bool) (p : unit) (text voice : string)
  (speed : Z) (x : list Event)
: Res (Generator (list Event) (string * string * Audio)) * list Event :=
if String.eqb voice "af_heart" then KPipeline_call spy p text voice speed x
else (Raise (Exc (LibraryError "KeyError") voice), x).

Definition cuda_is_available (x : list Event) : bool := false.

Definition fresh : St (list Event) unit :=
mkWorld [] ∅ (mkGlobals None None) [].

Definition ready : St (list Event) unit :=
mkWorld ["Model loaded successfully!"] ∅ (mkGlobals (Some "cpu") (Some tt)) [].

Definition hello : string := "Hello, this is a text to speech demonstration.".

(** A gated repository of two files, and a shell to fetch it from. *)
Definition kokoro_files : gmap string string :=
<["config.json" := "{}"]> {["kokoro-v1_0.pth" := "weights"]}.

Definition gated (hub_token : string) (file : gmap string string)
: DownloadWeights.Store :=
DownloadWeights.mkStore file {[DownloadWeights.MODEL_ID := kokoro_files]}
  (Some hub_token) true ∅.

Definition shell (env : gmap string string) (st : DownloadWeights.Store)
: DownloadWeights.St DownloadWeights.Store :=
mkWorld [] env tt st.

End Bench.

(** ** Notions for statements about whole runs *)

Module Shape.
Import App.

(** Neither the pipeline call nor the first [next] lets anything out that
    is not an [Exception]. *)
Definition raises_only_exceptions {X Handle Audio : Type}
    (call : Handle -> string -> string -> Z -> X
            -> Res (Generator X (Segment Audio)) * X) : Prop :=
  forall p text x,
    match call p text "af_heart" 1 x with
    | (Raise e, _) => isinstance_Exception e = true
    | (Ok g, x1) =>
        match resume g x1 with
        | (Throw e, _) => isinstance_Exception e = true
        | _ => True
        end
    end.

(** A response the form can get from [generate_speech]. *)
Definition well_formed {Audio : Type} (r : Response Audio) : Prop :=
  match r with
  | AudioOut rate _ => rate = 24000
  | ErrorShown message => exists s, message = "Failed to generate speech: " +:+ s
  end.

Fixpoint errors_shown {Audio : Type} (out : list (Response Audio)) : nat :=
  match out with
  | [] => 0%nat
  | ErrorShown _ :: later => S (errors_shown later)
  | AudioOut _ _ :: later => errors_shown later
  end.

(** One invocation of the pipeline: the text, the voice and the speed. *)
Abbreviation Invocation := (string * string * Z)%type.

(** A generator of the library, run on a library state that carries a
    record of invocations beside it; resuming leaves the record alone. *)
Fixpoint keep_record {X Item : Type} (g : Generator X Item)
  : Generator (X * list Invocation) Item :=
  match g with
  | Gen r =>
      Gen (fun xl =>
             match r xl.1 with
             | (Yield item rest, x') => (Yield item (keep_record rest), (x', xl.2))
             | (Finish, x') => (Finish, (x', xl.2))
             | (Throw e, x') => (Throw e, (x', xl.2))
             end)
  end.

(** The pipeline [call] under observation: every invocation is written
    down with its arguments before [call] does what it does. *)
Definition recording {X Handle Audio : Type}
    (call : Handle -> string -> string -> Z -> X
            -> Res (Generator X (Segment Audio)) * X)
    (p : Handle) (text voice : string) (speed : Z) (xl : X * list Invocation)
  : Res (Generator (X * list Invocation) (Segment Audio)) * (X * list Invocation) :=
  match call p text voice speed xl.1 with
  | (Ok g, x') => (Ok (keep_record g), (x', (xl.2 ++ [(text, voice, speed)])%list))
  | (Raise e, x') => (Raise e, (x', (xl.2 ++ [(text, voice, speed)])%list))
  end.

(** A state of the observed service, and the state the service itself
    sees in it. *)
Definition unobserved {X Handle : Type}
    (w : App.St (X * list Invocation) Handle) : App.St X Handle :=
  mkWorld (console w) (environ w) (globals w) (ext w).1.

(** Libraries interrupted from the keyboard. *)
Definition KPipeline_interrupted (lang_code : string) (x : list Bench.Event)
  : Res unit * list Bench.Event :=
  (Raise (Exc KeyboardInterrupt EmptyString), x).


Definition snapshot_download_interrupted (repo_id local_dir : string)
    (token : option string) (st : DownloadWeights.Store)
  : Res string * DownloadWeights.Store :=
  (Raise (Exc KeyboardInterrupt EmptyString), st).

(** A copy of [mirror_snapshot_download] that serves one repository and
    one destination only. *)
Definition snapshot_download_kokoro_only (repo_id local_dir : string)
    (token : option string) (st : DownloadWeights.Store)
  : Res string * DownloadWeights.Store :=
  if String.eqb repo_id "hexgrad/Kokoro-82M" && String.eqb local_dir "./weights"
  then DownloadWeights.mirror_snapshot_download repo_id local_dir token st
  else (Raise (Exc (LibraryError "ValueError") "unexpected arguments"), st).

End Shape.

(** ** Properties of the inference service *)

Import App.

Ltac py_unfold :=
cbv beta delta [generate_speech first_segment try_except bind read_pipeline
  get_globals set_globals get_environ set_environ next extern print sys_exit
  ret raise with_ext with_console] in *; simpl in *.

Lemma string_app_empty (s : string) : s +:+ EmptyString = s.
Proof.
induction s as [|a s IH]; [reflexivity|].
change (String a (s +:+ EmptyString) = String a s). f_equal. exact IH.
Qed.

Section AppFacts.
Variables X Handle Audio : Type.
Variable KPipeline_call :
  Handle -> string -> string -> Z -> X -> Res (Generator X (Segment Audio)) * X.

Local Abbreviation St := (St X Handle).
Local Abbreviation speech := (generate_speech KPipeline_call).

(** Every way the body of the [try] can end, for any pipeline. *)
Lemma first_segment_cases_any
    (call : Handle -> string -> string -> Z -> X
            -> Res (Generator X (Segment Audio)) * X)
    (text : string) (w : St) :
  match pipeline (globals w) with
  | None =>
      first_segment call text w
      = (Raise (Exc NameError "name 'pipeline' is not defined"), w)
  | Some p =>
      match call p text "af_heart" 1 (ext w) with
      | (Raise e, x1) => first_segment call text w = (Raise e, with_ext w x1)
      | (Ok g, x1) =>
          match resume g x1 with
          | (Yield (_, _, audio) _, x2) =>
              first_segment call text w = (Ok (24000, audio), with_ext w x2)
          | (Finish, x2) =>
              first_segment call text w
              = (Raise (Exc StopIteration EmptyString), with_ext w x2)
          | (Throw e, x2) => first_segment call text w = (Raise e, with_ext w x2)
          end
      end
  end.
Proof.
  destruct w as [c env [d [p|]] x]; py_unfold; [|reflexivity].
  destruct (call p text "af_heart" 1 x) as [[g|e] x1]; [|reflexivity].
  simpl. destruct (resume g x1) as [[[[gr ph] audio] rest| |e] x2]; reflexivity.
Qed.


(** The body of the [try] prints nothing and assigns no global or
    environment variable. *)
Lemma first_segment_frame (text : string) (w : St) :
  snd (first_segment KPipeline_call text w)
  = with_ext w (ext (snd (first_segment KPipeline_call text w))).
Proof.
  pose proof (first_segment_cases_any KPipeline_call text w) as H.
  destruct w as [c env [d [p|]] x]; simpl in H; [|rewrite H; reflexivity].
  destruct (KPipeline_call p text "af_heart" 1 x) as [[g|e] x1];
    [|rewrite H; reflexivity].
  destruct (resume g x1) as [[[[gr ph] audio] rest| |e] x2];
    rewrite H; reflexivity.
Qed.

(** [generate_speech] in terms of the body of its [try]. *)
Lemma generate_speech_unfold (text : string) (w : St) :
  speech text w =
  match first_segment KPipeline_call text w with
  | (Ok r, w1) => (Ok r, w1)
  | (Raise e, w1) =>
      if isinstance_Exception e then
        (Raise (Exc GradioError ("Failed to generate speech: " +:+ str e)),
         with_console w1 (console w1 ++ ["Error generating speech: " +:+ str e]))
      else (Raise e, w1)
  end.
Proof.
  unfold generate_speech, try_except.
  destruct (first_segment KPipeline_call text w) as [[r|e] w1]; [reflexivity|].
  destruct (isinstance_Exception e); reflexivity.
Qed.

(** A request assigns no global and no environment variable. *)
Lemma generate_speech_frame (text : string) (w : St) :
  globals (snd (speech text w)) = globals w
  /\ environ (snd (speech text w)) = environ w.
Proof.
  rewrite generate_speech_unfold.
  pose proof (first_segment_frame text w) as H.
  destruct (first_segment KPipeline_call text w) as [[r|e] w1]; simpl in *.
  - rewrite H. split; reflexivity.
  - destruct (isinstance_Exception e); simpl; rewrite H; split; reflexivity.
Qed.

(** C1: whenever [generate_speech] returns, on a non-empty text or any
    other, the first component of the pair it returns is 24000. *)
Theorem generate_speech_sample_rate (text : string) (w w' : St)
    (rate : Z) (audio : Audio) :
  speech text w = (Ok (rate, audio), w') -> rate = 24000.
Proof.
  rewrite generate_speech_unfold.
  pose proof (first_segment_cases_any KPipeline_call text w) as H.
  destruct (pipeline (globals w)) as [p|].
  - destruct (KPipeline_call p text "af_heart" 1 (ext w)) as [[g|e] x1].
    + destruct (resume g x1) as [[[[gr ph] a] rest| |e] x2]; rewrite H.
      * intros E. inversion E. reflexivity.
      * simpl. discriminate.
      * destruct (isinstance_Exception e); discriminate.
    + rewrite H. destruct (isinstance_Exception e); discriminate.
  - rewrite H. simpl. discriminate.
Qed.

(** C2: when the generator the pipeline returns yields a first segment,
    [generate_speech] returns the audio of that segment.  The rest of the
    generator is never resumed: the library state that is left is the one
    the first [next] produced, and a pipeline that agrees on the first
    audio and differs in everything after it gives the same outcome. *)
Theorem generate_speech_first_segment_only (text : string) (w : St)
    (p : Handle) (g : Generator X (Segment Audio)) (x1 x2 : X)
    (graphemes phonemes : string) (audio : Audio)
    (rest : Generator X (Segment Audio)) :
  pipeline (globals w) = Some p ->
  KPipeline_call p text "af_heart" 1 (ext w) = (Ok g, x1) ->
  resume g x1 = (Yield (graphemes, phonemes, audio) rest, x2) ->
  speech text w = (Ok (24000, audio), with_ext w x2)
  /\ forall call' g' graphemes' phonemes' rest',
       call' p text "af_heart" 1 (ext w) = (Ok g', x1) ->
       resume g' x1 = (Yield (graphemes', phonemes', audio) rest', x2) ->
       generate_speech call' text w = speech text w.
Proof.
  intros Hp Hc Hr.
  assert (forall call' g' gr' ph' rest',
             call' p text "af_heart" 1 (ext w) = (Ok g', x1) ->
             resume g' x1 = (Yield (gr', ph', audio) rest', x2) ->
             generate_speech call' text w = (Ok (24000, audio), with_ext w x2))
    as Hany.
  { intros call' g' gr' ph' rest' Hc' Hr'.
    pose proof (first_segment_cases_any call' text w) as H.
    rewrite Hp, Hc' in H. simpl in H. rewrite Hr' in H.
    unfold generate_speech, try_except. rewrite H. reflexivity. }
  split.
  - eapply Hany; eassumption.
  - intros call' g' gr' ph' rest' Hc' Hr'.
    rewrite (Hany _ _ _ _ _ Hc' Hr'). symmetry. eapply Hany; eassumption.
Qed.

(** What a request returns or raises is decided by the text, the handle
    bound to [pipeline] and the library state; the console, the
    environment and [device] play no part. *)
Lemma generate_speech_reads (text : string) (w1 w2 : St) :
  pipeline (globals w1) = pipeline (globals w2) ->
  ext w1 = ext w2 ->
  fst (speech text w1) = fst (speech text w2).
Proof.
  destruct w1 as [c1 e1 [d1 p1] x1], w2 as [c2 e2 [d2 p2] x2]; simpl.
  intros -> ->. py_unfold.
  destruct p2 as [p|]; [|reflexivity]. simpl.
  destruct (KPipeline_call p text "af_heart" 1 x2) as [[g|e] y1]; simpl.
  - destruct (resume g y1) as [[[[gr ph] audio] rest| |e] y2]; simpl;
      try reflexivity.
    destruct (isinstance_Exception e); reflexivity.
  - destruct (isinstance_Exception e); reflexivity.
Qed.

(** With a read-only handle a request leaves the library state alone. *)
Lemma generate_speech_ext (text : string) (w : St) :
  handle_read_only KPipeline_call -> ext (snd (speech text w)) = ext w.
Proof.
  intros RO. rewrite generate_speech_unfold.
  pose proof (first_segment_cases_any KPipeline_call text w) as H.
  destruct (pipeline (globals w)) as [p|].
  - specialize (RO p text (ext w)).
    destruct (KPipeline_call p text "af_heart" 1 (ext w)) as [[g|e] x1].
    + destruct RO as [-> RO].
      destruct (resume g (ext w)) as [[[[gr ph] a] rest| |e] x2];
        simpl in RO; subst x2; rewrite H; simpl; try reflexivity.
      destruct (isinstance_Exception e); reflexivity.
    + subst x1. rewrite H. destruct (isinstance_Exception e); reflexivity.
  - rewrite H. reflexivity.
Qed.

Lemma after_requests_frame (requests : list string) (w : St) :
  handle_read_only KPipeline_call ->
  globals (after_requests KPipeline_call requests w) = globals w
  /\ environ (after_requests KPipeline_call requests w) = environ w
  /\ ext (after_requests KPipeline_call requests w) = ext w.
Proof.
  intros RO. revert w. induction requests as [|text later IH]; intros w.
  - repeat split.
  - unfold after_requests in *. simpl.
    destruct (IH (snd (speech text w))) as (Hg & He & Hx).
    destruct (generate_speech_frame text w) as [Hg' He'].
    rewrite Hg, He, Hx, Hg', He', generate_speech_ext by assumption.
    repeat split.
Qed.

(** C10: when the generator is exhausted at the first [next], the
    [StopIteration] is caught by the [except] branch; what leaves
    [generate_speech] is the user-facing error, which the interface layer
    shows without ending the process. *)
Theorem generate_speech_no_segment (text : string) (w : St)
    (p : Handle) (g : Generator X (Segment Audio)) (x1 x2 : X) :
  pipeline (globals w) = Some p ->
  KPipeline_call p text "af_heart" 1 (ext w) = (Ok g, x1) ->
  resume g x1 = (Finish, x2) ->
  let w' := with_console (with_ext w x2)
              (console w ++ ["Error generating speech: "]) in
  speech text w = (Raise (Exc GradioError "Failed to generate speech: "), w')
  /\ launch speech [text] w
     = ([ErrorShown "Failed to generate speech: "], None, w').
Proof.
  intros Hp Hc Hr w'.
  assert (speech text w
          = (Raise (Exc GradioError "Failed to generate speech: "), w')) as E.
  { rewrite generate_speech_unfold.
    pose proof (first_segment_cases_any KPipeline_call text w) as H.
    rewrite Hp, Hc in H. simpl in H. rewrite Hr in H. rewrite H. reflexivity. }
  split; [exact E|]. simpl. rewrite E. reflexivity.
Qed.

(** C3: when the synthesis raises an error [e], [generate_speech] prints
    one line that holds [str e] and raises a [gr.Error] whose message
    contains [str e].  The failed request changes no global and no
    environment variable; with a read-only handle it leaves the library
    state as it was, and every later request ends exactly as it would
    have ended without the failure, so a valid one still succeeds. *)
Theorem generate_speech_failure_isolated (text : string) (w w1 : St)
    (e : PyExc) :
  first_segment KPipeline_call text w = (Raise e, w1) ->
  isinstance_Exception e = true ->
  let message := "Failed to generate speech: " +:+ str e in
  let w' := with_console w1 (console w ++ ["Error generating speech: " +:+ str e]) in
  speech text w = (Raise (Exc GradioError message), w')
  /\ contains message (str e)
  /\ globals w' = globals w
  /\ environ w' = environ w
  /\ (handle_read_only KPipeline_call ->
      ext w' = ext w
      /\ forall text2, fst (speech text2 w') = fst (speech text2 w)).
Proof.
  intros Hb He message w'.
  pose proof (first_segment_frame text w) as Hf. rewrite Hb in Hf. simpl in Hf.
  assert (speech text w = (Raise (Exc GradioError message), w')) as E.
  { rewrite generate_speech_unfold, Hb, He. subst w'. rewrite Hf. reflexivity. }
  split; [exact E|]. split.
  { exists "Failed to generate speech: ", EmptyString. subst message.
    rewrite string_app_empty. reflexivity. }
  destruct (generate_speech_frame text w) as [Hg Hv]. rewrite E in Hg, Hv.
  cbn [snd] in Hg, Hv.
  split; [exact Hg|]. split; [exact Hv|].
  intros RO.
  pose proof (generate_speech_ext text w RO) as Hx. rewrite E in Hx.
  cbn [snd] in Hx.
  split; [exact Hx|].
  intros text2. apply generate_speech_reads; [rewrite Hg; reflexivity | exact Hx].
Qed.

(** C8: with a read-only handle, what [generate_speech] returns or raises
    for a text is the same in any two states that hold the same handle and
    library state, whatever was printed before and whichever other
    requests ran in between; those requests assign no global and no
    environment variable and leave the library state alone.  The one
    thing a request writes is its line on the console, which none reads. *)
Theorem generate_speech_depends_on_text_only :
  handle_read_only KPipeline_call ->
  forall (text : string) (others : list string) (w1 w2 : St),
    pipeline (globals w1) = pipeline (globals w2) ->
    ext w1 = ext w2 ->
    fst (speech text (after_requests KPipeline_call others w1))
    = fst (speech text w2)
    /\ globals (after_requests KPipeline_call others w1) = globals w1
    /\ environ (after_requests KPipeline_call others w1) = environ w1
    /\ ext (after_requests KPipeline_call others w1) = ext w1.
Proof.
  intros RO text others w1 w2 Hp Hx.
  destruct (after_requests_frame others w1 RO) as (Hg & He & Hx').
  split; [|auto].
  apply generate_speech_reads; congruence.
Qed.

(** Two pipelines that agree on the voice "af_heart" and the speed 1 make
    [generate_speech] behave the same on every text and state, however
    they differ elsewhere. *)
Lemma generate_speech_agreeing_pipelines
    (call' : Handle -> string -> string -> Z -> X
             -> Res (Generator X (Segment Audio)) * X) :
  (forall p text x,
      call' p text "af_heart" 1 x = KPipeline_call p text "af_heart" 1 x) ->
  forall (text : string) (w : St),
    generate_speech call' text w = speech text w.
Proof.
  intros H text w. py_unfold.
  destruct (pipeline (globals w)) as [p|]; [|reflexivity].
  simpl. rewrite H. reflexivity.
Qed.

Variable cuda_is_available : X -> bool.
Variable KPipeline : string -> X -> Res Handle * X.

Local Abbreviation run := (run_app cuda_is_available KPipeline KPipeline_call).

(** The state in which the [try] around the constructor starts. *)
Lemma startup_unfold (w : St) :
  let d := torch_device cuda_is_available (ext w) in
  let w0 := mkWorld (console w ++ ["Using device: " +:+ d;
                                   "Loading Kokoro TTS model..."])
              (environ w) (mkGlobals (Some d) (pipeline (globals w))) (ext w) in
  startup cuda_is_available KPipeline w =
  match KPipeline "en" (ext w) with
  | (Ok p, x') =>
      (Ok tt, mkWorld (console w0 ++ ["Model loaded successfully!"])
                (environ w) (mkGlobals (Some d) (Some p)) x')
  | (Raise e, x') =>
      if isinstance_Exception e then
        (Raise (SystemExit 1),
         mkWorld (console w0 ++ ["Error loading model: " +:+ str e])
           (environ w) (globals w0) x')
      else (Raise e, with_ext w0 x')
  end.
Proof.
  destruct w as [c env [d0 p0] x]. unfold startup, set_device, set_pipeline.
  py_unfold. rewrite <- app_assoc. simpl.
  destruct (KPipeline "en" x) as [[p|e] x']; simpl.
  - rewrite <- app_assoc. reflexivity.
  - destruct (isinstance_Exception e); [|reflexivity].
    rewrite <- app_assoc. reflexivity.
Qed.

(** C4: when the constructor raises an error, the process prints it and
    ends with status 1 before any request is served, whatever requests
    arrive; and a run that served a request is one whose constructor
    returned a handle. *)
Theorem startup_failure_is_fatal (w : St) (e : PyExc) (x' : X) :
  KPipeline "en" (ext w) = (Raise e, x') ->
  isinstance_Exception e = true ->
  (forall requests,
      run requests w
      = mkRun (Some (Exit 1))
          (console w ++ ["Using device: " +:+ torch_device cuda_is_available (ext w);
                        "Loading Kokoro TTS model...";
                        "Error loading model: " +:+ str e])
          [])
  /\ (forall requests w0,
        served (run requests w0) <> [] ->
        exists p x, KPipeline "en" (ext w0) = (Ok p, x)).
Proof.
  intros Hk He. split.
  - intros requests. unfold run_app.
    pose proof (startup_unfold w) as H. simpl in H. rewrite H, Hk, He. simpl.
    rewrite <- app_assoc. reflexivity.
  - intros requests w0. unfold run_app.
    pose proof (startup_unfold w0) as H. simpl in H. rewrite H.
    destruct (KPipeline "en" (ext w0)) as [[p|e0] x0].
    + intros _. eauto.
    + destruct (isinstance_Exception e0); simpl; congruence.
Qed.

End AppFacts.

Import Shape.

(** What resuming an observed generator does. *)
Lemma resume_keep_record {X Item : Type} (g : Generator X Item)
    (x : X) (l : list Invocation) :
  resume (keep_record g) (x, l)
  = match resume g x with
    | (Yield item rest, x') => (Yield item (keep_record rest), (x', l))
    | (Finish, x') => (Finish, (x', l))
    | (Throw e, x') => (Throw e, (x', l))
    end.
Proof. destruct g as [r]. reflexivity. Qed.

(** What one invocation of an observed pipeline does. *)
Lemma recording_call {X Handle Audio : Type}
    (call : Handle -> string -> string -> Z -> X
            -> Res (Generator X (Segment Audio)) * X)
    (p : Handle) (text voice : string) (speed : Z) (x : X) (l : list Invocation) :
  recording call p text voice speed (x, l)
  = match call p text voice speed x with
    | (Ok g, x') => (Ok (keep_record g), (x', (l ++ [(text, voice, speed)])%list))
    | (Raise e, x') => (Raise e, (x', (l ++ [(text, voice, speed)])%list))
    end.
Proof. reflexivity. Qed.

(** C9: whatever the pipeline and the text, a request invokes the pipeline
    exactly once, with that text, the voice "af_heart" and the speed 1:
    this is the one entry the request adds to the record of an observed
    pipeline, and observing changes nothing else.  Voice and speed are not
    arguments of [generate_speech], and what the pipeline would do for
    another voice or speed has no influence on a request. *)
Theorem generate_speech_fixed_voice_and_speed (X Handle Audio : Type)
    (call : Handle -> string -> string -> Z -> X
            -> Res (Generator X (Segment Audio)) * X)
    (text : string) (w : App.St (X * list Invocation) Handle) (p : Handle) :
  pipeline (globals w) = Some p ->
  let observed := generate_speech (recording call) text w in
  (ext (snd observed)).2 = ((ext w).2 ++ [(text, "af_heart", 1)])%list
  /\ fst observed = fst (generate_speech call text (unobserved w))
  /\ unobserved (snd observed) = snd (generate_speech call text (unobserved w))
  /\ forall call',
       (forall p' text' x,
           call' p' text' "af_heart" 1 x = call p' text' "af_heart" 1 x) ->
       forall text' w', generate_speech call' text' w' = generate_speech call text' w'.
Proof.
  intros Hp observed. subst observed.
  rewrite !generate_speech_unfold.
  pose proof (first_segment_cases_any _ _ _ (recording call) text w) as Ho.
  pose proof (first_segment_cases_any _ _ _ call text (unobserved w)) as Hu.
  destruct w as [c env [d q] [x l]]. simpl in Hp. subst q.
  unfold unobserved in *. simpl in Ho, Hu |- *. rewrite recording_call in Ho.
  destruct (call p text "af_heart" 1 x) as [[g|e] x1].
  - rewrite resume_keep_record in Ho.
    destruct (resume g x1) as [[[[gr ph] a] rest| |e] x2];
      rewrite Ho, Hu; simpl.
    + repeat split. apply generate_speech_agreeing_pipelines.
    + repeat split. apply generate_speech_agreeing_pipelines.
    + destruct (isinstance_Exception e); simpl; repeat split;
        apply generate_speech_agreeing_pipelines.
  - rewrite Ho, Hu. destruct (isinstance_Exception e); simpl; repeat split;
      apply generate_speech_agreeing_pipelines.
Qed.

(** ** Properties of the weight fetcher *)

Import DownloadWeights.

Section FetchFacts.
Variable X : Type.
Variable dotenv_values : X -> gmap string string.
Variable snapshot_download :
  string -> string -> option string -> X -> Res string * X.

Local Abbreviation St := (DownloadWeights.St X).
Local Abbreviation fetch := (download_model_weights snapshot_download).
Local Abbreviation downloading :=
  ("Downloading Kokoro TTS model weights from hexgrad/Kokoro-82M...").

(** Every way [download_model_weights] can end. *)
Lemma download_model_weights_unfold (token : option string) (w : St) :
  fetch token w =
  match snapshot_download MODEL_ID "./weights" token (ext w) with
  | (Ok _, x') =>
      (Ok tt,
       mkWorld (console w ++ [downloading; "Model weights downloaded successfully!"])
         (environ w) (globals w) x')
  | (Raise e, x') =>
      if isinstance_Exception e then
        (Ok tt,
         mkWorld (console w ++
                    [downloading;
                     "Error downloading model weights: " +:+ str e;
                     String (Ascii.ascii_of_nat 10)
                       "Please make sure your Hugging Face token is correct.";
                     "You can get a token from: https://huggingface.co/settings/tokens"])
           (environ w) (globals w) x')
      else (Raise e, mkWorld (console w ++ [downloading]) (environ w) (globals w) x')
  end.
Proof.
  unfold download_model_weights. py_unfold.
  destruct (snapshot_download MODEL_ID "./weights" token (ext w)) as [[path|e] x'];
    simpl.
  - rewrite <- app_assoc. reflexivity.
  - destruct (isinstance_Exception e); [|reflexivity].
    rewrite <- !app_assoc. reflexivity.
Qed.

(** The [__main__] block hands [download_model_weights] the token that
    line 40 computes from the environment as [load_dotenv] left it. *)
Lemma main_unfold (args_token : option string) (w : St) :
  let env := environ w ∪ dotenv_values (ext w) in
  main dotenv_values snapshot_download args_token w
  = fetch (token_of args_token env)
      (mkWorld (console w) env (globals w) (ext w)).
Proof. reflexivity. Qed.

(** A token given on the command line, if not empty, is the one used. *)
Lemma token_of_command_line (args_token : option string)
    (env : gmap string string) :
  truthy args_token = true -> token_of args_token env = args_token.
Proof. intros H. unfold token_of, py_or. rewrite H. reflexivity. Qed.

(** C6, amended: a download that raises an error is caught; the error
    and the two lines about the token are printed; nothing is raised and
    [None] is returned, so the script ends with status 0.  A successful
    fetch returns [None] as well: the two differ in what is printed, not
    in what the caller gets. *)
Theorem download_failure_is_printed (token : option string) (w : St)
    (e : PyExc) (x' : X) :
  snapshot_download MODEL_ID "./weights" token (ext w) = (Raise e, x') ->
  isinstance_Exception e = true ->
  fetch token w
  = (Ok tt,
     mkWorld (console w ++
                [downloading;
                 "Error downloading model weights: " +:+ str e;
                 String (Ascii.ascii_of_nat 10)
                   "Please make sure your Hugging Face token is correct.";
                 "You can get a token from: https://huggingface.co/settings/tokens"])
       (environ w) (globals w) x')
  /\ (forall args_token w0,
        ext w0 = ext w ->
        token_of args_token (environ w0 ∪ dotenv_values (ext w0)) = token ->
        process_end (fst (main dotenv_values snapshot_download args_token w0))
        = Exit 0)
  /\ (forall t2 w2,
        download_succeeds snapshot_download t2 w2 ->
        fst (fetch t2 w2) = fst (fetch token w)).
Proof.
  intros Hd He.
  assert (fst (fetch token w) = Ok tt) as Hr.
  { rewrite download_model_weights_unfold, Hd, He. reflexivity. }
  split; [|split].
  - rewrite download_model_weights_unfold, Hd, He. reflexivity.
  - intros args_token w0 Hx Ht.
    pose proof (main_unfold args_token w0) as Hm. simpl in Hm.
    rewrite Hm, Ht, download_model_weights_unfold. simpl.
    rewrite Hx, Hd, He. reflexivity.
  - intros t2 w2 (path & x2 & H2).
    rewrite Hr, download_model_weights_unfold, H2. reflexivity.
Qed.

End FetchFacts.

(** The mirror leaves a destination that it has just filled as it is. *)
Lemma mirror_snapshot_download_again (repo_id local_dir path : string)
  (token : option string) (st st' : Store) :
mirror_snapshot_download repo_id local_dir token st = (Ok path, st') ->
mirror_snapshot_download repo_id local_dir token st' = (Ok path, st').
Proof.
unfold mirror_snapshot_download, authorised.
destruct st as [env h ht wr d]; simpl.
destruct (h !! repo_id) as [files|] eqn:Hh; [|discriminate].
destruct (negb _) eqn:Ha; [discriminate|].
destruct wr; simpl; [|discriminate].
intros E. inversion E; subst; clear E. simpl.
rewrite Hh, Ha. simpl. f_equal. f_equal.
rewrite lookup_insert_eq. simpl.
rewrite insert_insert_eq, (assoc_L (∪)), (idemp_L (∪)). reflexivity.
Qed.

(** Whether the mirror succeeds does not depend on what the disk holds. *)
Lemma mirror_snapshot_download_any_disk (repo_id local_dir : string)
  (token : option string) (st : Store)
  (d : gmap string (gmap string string)) :
fst (mirror_snapshot_download repo_id local_dir token
       (mkStore (dotenv st) (hub st) (hub_token st) (writable st) d))
= fst (mirror_snapshot_download repo_id local_dir token st).
Proof.
unfold mirror_snapshot_download, authorised. simpl.
destruct (hub st !! repo_id); [|reflexivity].
destruct (negb _); [reflexivity|].
destruct (negb (writable st)); reflexivity.
Qed.

(** C7: against a mirror, a fetch that follows a successful fetch with the
  same token succeeds again, prints the same two lines and leaves the
  disk as the first fetch left it; and whether a fetch succeeds does not
  depend on what the destination already holds. *)
Theorem refetch_is_idempotent (token : option string) (w : DownloadWeights.St Store) :
download_succeeds mirror_snapshot_download token w ->
let w1 := snd (download_model_weights mirror_snapshot_download token w) in
download_model_weights mirror_snapshot_download token w1
= (Ok tt,
   with_console w1
     (console w1 ++
        ["Downloading Kokoro TTS model weights from hexgrad/Kokoro-82M...";
         "Model weights downloaded successfully!"]))
/\ forall d : gmap string (gmap string string),
     download_succeeds mirror_snapshot_download token
       (with_ext w (mkStore (dotenv (ext w)) (hub (ext w)) (hub_token (ext w))
                      (writable (ext w)) d)).
Proof.
intros (path & st' & H). split.
- rewrite (download_model_weights_unfold _ _ token w), H. simpl.
  rewrite download_model_weights_unfold. simpl.
  rewrite (mirror_snapshot_download_again _ _ _ _ _ _ H). reflexivity.
- intros d. unfold download_succeeds. simpl.
  pose proof (mirror_snapshot_download_any_disk MODEL_ID "./weights" token (ext w) d)
    as Hd.
  rewrite H in Hd. simpl in Hd.
  eexists path, _. rewrite <- Hd. apply surjective_pairing.
Qed.

(** C6 as the specification words it fails: a fetch that the hub refuses
  and a fetch that succeeds hand the caller the same value. *)
Lemma fetch_outcome_not_signalled :
let w := Bench.shell ∅ (Bench.gated "hf_good" ∅) in
download_fails mirror_snapshot_download (Some "hf_wrong") w
/\ download_succeeds mirror_snapshot_download (Some "hf_good") w
/\ fst (download_model_weights mirror_snapshot_download (Some "hf_wrong") w)
   = fst (download_model_weights mirror_snapshot_download (Some "hf_good") w)
/\ ~ signals_outcome mirror_snapshot_download.
Proof.
intros w.
assert (download_fails mirror_snapshot_download (Some "hf_wrong") w) as Hf.
{ eexists _, _. split; reflexivity. }
assert (download_succeeds mirror_snapshot_download (Some "hf_good") w) as Hs.
{ eexists _, _. reflexivity. }
repeat split; [exact Hf | exact Hs | ].
intros H. exact (H _ _ _ _ Hf Hs eq_refl).
Qed.

(** C5 fails on the code: with no token on the command line, a token in
  the environment of the process is used although the .env file holds
  one, both when the two sit under different names and when they sit
  under the same name.  The hub, which wants the token of the file,
  refuses the fetch. *)
Theorem token_environment_before_file :
let env : gmap string string := {[HUGGING_FACE_TOKEN := "hf_env"]} in
let file_hub : gmap string string := {[HUGGING_FACE_HUB_TOKEN := "hf_file"]} in
let file_same : gmap string string := {[HUGGING_FACE_TOKEN := "hf_file"]} in
let w1 := Bench.shell env (Bench.gated "hf_file" file_hub) in
let w2 := Bench.shell env (Bench.gated "hf_file" file_same) in
(main dotenv mirror_snapshot_download None w1
 = download_model_weights mirror_snapshot_download (Some "hf_env")
     (mkWorld [] (env ∪ file_hub) tt (ext w1))
 /\ token_by_source None file_hub env = Some "hf_file")
/\ (main dotenv mirror_snapshot_download None w2
    = download_model_weights mirror_snapshot_download (Some "hf_env")
        (mkWorld [] env tt (ext w2))
    /\ token_by_source None file_same env = Some "hf_file")
/\ console (snd (main dotenv mirror_snapshot_download None w1))
   = ["Downloading Kokoro TTS model weights from hexgrad/Kokoro-82M...";
      "Error downloading model weights: 401 Client Error";
      String (Ascii.ascii_of_nat 10)
        "Please make sure your Hugging Face token is correct.";
      "You can get a token from: https://huggingface.co/settings/tokens"].
Proof. vm_compute. repeat split. Qed.

(** *** The statements above at concrete inputs *)

Lemma bench_handle_read_only : handle_read_only (Bench.KPipeline_call false).
Proof.
intros p text x. unfold Bench.KPipeline_call, Bench.segments.
destruct (String.prefix "!" text); [reflexivity|].
split; [reflexivity|].
destruct (String.eqb text EmptyString); reflexivity.
Qed.

Lemma generate_speech_sample_rate_witness :
match fst (generate_speech (Bench.KPipeline_call true) Bench.hello Bench.ready) with
| Ok (rate, _) => rate
| Raise _ => 0
end = 24000.
Proof.
apply (generate_speech_sample_rate _ _ _ (Bench.KPipeline_call true)
         Bench.hello Bench.ready
         (snd (generate_speech (Bench.KPipeline_call true) Bench.hello Bench.ready))
         _ [1; 2; 3]).
reflexivity.
Defined.

Lemma generate_speech_first_segment_only_witness :
generate_speech (Bench.KPipeline_call true) Bench.hello Bench.ready
= (Ok (24000, [1; 2; 3]),
   with_ext Bench.ready
     [Bench.Called Bench.hello "af_heart" 1; Bench.Produced Bench.hello]).
Proof.
exact (proj1 (generate_speech_first_segment_only _ _ _ (Bench.KPipeline_call true)
                Bench.hello Bench.ready tt
                (Bench.gen_of true (Bench.segments Bench.hello "af_heart" 1))
                [Bench.Called Bench.hello "af_heart" 1]
                [Bench.Called Bench.hello "af_heart" 1; Bench.Produced Bench.hello]
                Bench.hello "af_heart" [1; 2; 3]
                (Bench.gen_of true [("more", "af_heart", [4])])
                eq_refl eq_refl eq_refl)).
Defined.

Lemma generate_speech_no_segment_witness :
generate_speech (Bench.KPipeline_call true) EmptyString Bench.ready
= (Raise (Exc GradioError "Failed to generate speech: "),
   with_console (with_ext Bench.ready [Bench.Called EmptyString "af_heart" 1])
     (console Bench.ready ++ ["Error generating speech: "])).
Proof.
exact (proj1 (generate_speech_no_segment _ _ _ (Bench.KPipeline_call true)
                EmptyString Bench.ready tt (Bench.gen_of true [])
                [Bench.Called EmptyString "af_heart" 1] [Bench.Called EmptyString "af_heart" 1]
                eq_refl eq_refl eq_refl)).
Defined.

Lemma generate_speech_failure_isolated_witness :
let w' := with_console Bench.ready
            (console Bench.ready ++ ["Error generating speech: model error"]) in
generate_speech (Bench.KPipeline_call false) "!" Bench.ready
= (Raise (Exc GradioError "Failed to generate speech: model error"), w')
/\ fst (generate_speech (Bench.KPipeline_call false) Bench.hello w')
   = Ok (24000, [1; 2; 3]).
Proof.
intros w'.
destruct (generate_speech_failure_isolated _ _ _ (Bench.KPipeline_call false)
            "!" Bench.ready Bench.ready
            (Exc (LibraryError "RuntimeError") "model error") eq_refl eq_refl)
  as (H1 & _ & _ & _ & H5).
split; [exact H1|].
destruct (H5 bench_handle_read_only) as [_ H6].
exact (H6 Bench.hello).
Defined.

Lemma generate_speech_depends_on_text_only_witness :
fst (generate_speech (Bench.KPipeline_call false) Bench.hello
       (after_requests (Bench.KPipeline_call false) ["!"; EmptyString; "other"] Bench.ready))
= fst (generate_speech (Bench.KPipeline_call false) Bench.hello
         (mkWorld [] ∅ (mkGlobals None (Some tt)) [])).
Proof.
exact (proj1 (generate_speech_depends_on_text_only _ _ _ (Bench.KPipeline_call false)
                bench_handle_read_only Bench.hello ["!"; EmptyString; "other"]
                Bench.ready (mkWorld [] ∅ (mkGlobals None (Some tt)) [])
                eq_refl eq_refl)).
Defined.

Lemma generate_speech_fixed_voice_and_speed_witness :
  let w : App.St (list Bench.Event * list Invocation) unit :=
    mkWorld [] ∅ (mkGlobals (Some "cpu") (Some tt)) ([], []) in
  (ext (snd (generate_speech (recording (Bench.KPipeline_call false))
               Bench.hello w))).2
  = [(Bench.hello, "af_heart", 1)]
  /\ fst (generate_speech (recording (Bench.KPipeline_call false)) Bench.hello w)
     = Ok (24000, [1; 2; 3]).
Proof.
  intros w.
  destruct (generate_speech_fixed_voice_and_speed _ _ _ (Bench.KPipeline_call false)
              Bench.hello w tt eq_refl) as (H1 & H2 & _).
  split; [exact H1 | exact H2].
Defined.

Lemma startup_failure_is_fatal_witness :
run_app Bench.cuda_is_available Bench.KPipeline_broken (Bench.KPipeline_call true)
  [Bench.hello] Bench.fresh
= mkRun (Some (Exit 1))
    ["Using device: cpu"; "Loading Kokoro TTS model...";
     "Error loading model: no weights"]
    [].
Proof.
exact (proj1 (startup_failure_is_fatal _ _ _ (Bench.KPipeline_call true)
                Bench.cuda_is_available Bench.KPipeline_broken Bench.fresh
                (Exc (LibraryError "RuntimeError") "no weights") []
                eq_refl eq_refl) [Bench.hello]).
Defined.

Lemma download_failure_is_printed_witness :
download_model_weights mirror_snapshot_download (Some "hf_wrong")
  (Bench.shell ∅ (Bench.gated "hf_good" ∅))
= (Ok tt,
   mkWorld
     ["Downloading Kokoro TTS model weights from hexgrad/Kokoro-82M...";
      "Error downloading model weights: 401 Client Error";
      String (Ascii.ascii_of_nat 10)
        "Please make sure your Hugging Face token is correct.";
      "You can get a token from: https://huggingface.co/settings/tokens"]
     ∅ tt (Bench.gated "hf_good" ∅)).
Proof.
exact (proj1 (download_failure_is_printed _ dotenv mirror_snapshot_download
                (Some "hf_wrong") (Bench.shell ∅ (Bench.gated "hf_good" ∅))
                (Exc (LibraryError "HfHubHTTPError") "401 Client Error")
                (Bench.gated "hf_good" ∅) eq_refl eq_refl)).
Defined.

Lemma refetch_is_idempotent_witness :
let w := Bench.shell ∅ (Bench.gated "hf_good" ∅) in
let w1 := snd (download_model_weights mirror_snapshot_download (Some "hf_good") w) in
disk (ext w1) !! "./weights" = Some Bench.kokoro_files
/\ download_model_weights mirror_snapshot_download (Some "hf_good") w1
   = (Ok tt,
      with_console w1
        (console w1 ++
           ["Downloading Kokoro TTS model weights from hexgrad/Kokoro-82M...";
            "Model weights downloaded successfully!"])).
Proof.
intros w w1. split; [reflexivity|].
refine (proj1 (refetch_is_idempotent (Some "hf_good") w _)).
exists "./weights", (ext w1). reflexivity.
Defined.

(** ** More about the inference service *)

Section AppCover.
Variables X Handle Audio : Type.
Variable KPipeline_call :
  Handle -> string -> string -> Z -> X -> Res (Generator X (Segment Audio)) * X.
Variable cuda_is_available : X -> bool.
Variable KPipeline : string -> X -> Res Handle * X.

Local Abbreviation St := (App.St X Handle).
Local Abbreviation speech := (generate_speech KPipeline_call).
Local Abbreviation run := (run_app cuda_is_available KPipeline KPipeline_call).

(** The three ways a request can end. *)
Lemma generate_speech_trichotomy (text : string) (w : St) :
  (exists audio x, speech text w = (Ok (24000, audio), with_ext w x))
  \/ (exists s x,
        speech text w
        = (Raise (Exc GradioError ("Failed to generate speech: " +:+ s)),
           with_console (with_ext w x)
             (console w ++ ["Error generating speech: " +:+ s])))
  \/ (exists e x,
        isinstance_Exception e = false /\ speech text w = (Raise e, with_ext w x)).
Proof.
rewrite generate_speech_unfold.
pose proof (first_segment_cases_any _ _ _ KPipeline_call text w) as H.
destruct w as [c env [d [p|]] x0]; simpl in H.
- destruct (KPipeline_call p text "af_heart" 1 x0) as [[g|e] x1].
  + destruct (resume g x1) as [[[[gr ph] a] rest| |e] x2]; rewrite H.
    * left. eauto.
    * right. left. exists EmptyString, x2. reflexivity.
    * destruct (isinstance_Exception e) eqn:He.
      -- right. left. exists (str e), x2. reflexivity.
      -- right. right. exists e, x2. split; [exact He | reflexivity].
  + rewrite H. destruct (isinstance_Exception e) eqn:He.
    * right. left. exists (str e), x1. reflexivity.
    * right. right. exists e, x1. split; [exact He | reflexivity].
- rewrite H. right. left.
  exists "name 'pipeline' is not defined", x0. reflexivity.
Qed.

(** With a pipeline that raises only [Exception]s, so does a request. *)
Lemma generate_speech_raises_exception (text : string) (w w' : St) (e : PyExc) :
  raises_only_exceptions KPipeline_call ->
  speech text w = (Raise e, w') -> isinstance_Exception e = true.
Proof.
intros RO. rewrite generate_speech_unfold.
pose proof (first_segment_cases_any _ _ _ KPipeline_call text w) as H.
destruct (pipeline (globals w)) as [p|].
- specialize (RO p text (ext w)).
  destruct (KPipeline_call p text "af_heart" 1 (ext w)) as [[g|e0] x1].
  + destruct (resume g x1) as [[[[gr ph] a] rest| |e0] x2]; rewrite H.
    * discriminate.
    * simpl. intros E. inversion E. reflexivity.
    * rewrite RO. intros E. inversion E. reflexivity.
  + rewrite H, RO. intros E. inversion E. reflexivity.
- rewrite H. simpl. intros E. inversion E. reflexivity.
Qed.

(** X1: an [Exception] that leaves [generate_speech] is always a
    [gr.Error] whose message starts with "Failed to generate speech: ", and
    the console has gained the one line that carries the same
    description; no other kind of [Exception] ever reaches the caller. *)
Theorem generate_speech_raises_only_gradio_error (text : string) (w w' : St)
    (e : PyExc) :
  speech text w = (Raise e, w') ->
  isinstance_Exception e = true ->
  exists s,
    e = Exc GradioError ("Failed to generate speech: " +:+ s)
    /\ console w' = (console w ++ ["Error generating speech: " +:+ s])%list.
Proof.
intros E He.
destruct (generate_speech_trichotomy text w)
  as [(a & x & H) | [(s & x & H) | (e0 & x & He0 & H)]];
  rewrite H in E; inversion E; subst.
- exists s. split; reflexivity.
- congruence.
Qed.

(** X2: a request that returns has printed nothing and has assigned no
    global and no environment variable: the state differs from the one it
    started in by the library state at most. *)
Theorem generate_speech_success_is_silent (text : string) (w w' : St)
    (r : Z * Audio) :
  speech text w = (Ok r, w') -> w' = with_ext w (ext w').
Proof.
intros E.
destruct (generate_speech_trichotomy text w)
  as [(a & x & H) | [(s & x & H) | (e0 & x & He0 & H)]];
  rewrite H in E; inversion E; subst.
reflexivity.
Qed.


(** X4: while the global [pipeline] is unbound, a request never reaches
    the library: the [NameError] becomes the user-facing error and the
    library state stays as it was. *)
Theorem generate_speech_unbound_pipeline (text : string) (w : St) :
  pipeline (globals w) = None ->
  speech text w
  = (Raise (Exc GradioError
              "Failed to generate speech: name 'pipeline' is not defined"),
     with_console w
       (console w ++ ["Error generating speech: name 'pipeline' is not defined"])).
Proof.
intros Hp. rewrite generate_speech_unfold.
pose proof (first_segment_cases_any _ _ _ KPipeline_call text w) as H.
rewrite Hp in H. rewrite H. reflexivity.
Qed.

(** X5: whatever the pipeline does, no sequence of requests rebinds
    [pipeline] or [device] or touches the environment, and the console
    only grows. *)
Theorem requests_keep_globals (requests : list string) (w : St) :
  globals (after_requests KPipeline_call requests w) = globals w
  /\ environ (after_requests KPipeline_call requests w) = environ w
  /\ exists added,
       console (after_requests KPipeline_call requests w)
       = (console w ++ added)%list.
Proof.
revert w. induction requests as [|text later IH]; intros w.
- repeat split. exists []. rewrite app_nil_r. reflexivity.
- unfold after_requests in *. simpl.
  destruct (IH (snd (speech text w))) as (Hg & He & added & Hc).
  destruct (generate_speech_frame _ _ _ KPipeline_call text w) as [Hg' He'].
  rewrite Hg, He, Hg', He', Hc. repeat split.
  destruct (generate_speech_trichotomy text w)
    as [(a & x & H) | [(s & x & H) | (e0 & x & He0 & H)]]; rewrite H; simpl.
  + exists added. reflexivity.
  + exists (("Error generating speech: " +:+ s) :: added).
    rewrite <- app_assoc. reflexivity.
  + exists added. reflexivity.
Qed.

(** X6: with a pipeline that raises only [Exception]s, the request loop
    never stops and answers every request, one response each. *)
Theorem launch_answers_every_request :
  raises_only_exceptions KPipeline_call ->
  forall (requests : list string) (w : St),
    exists out w',
      launch speech requests w = (out, None, w')
      /\ length out = length requests.
Proof.
intros RO requests. induction requests as [|text later IH]; intros w.
- exists [], w. split; reflexivity.
- simpl. destruct (speech text w) as [[[rate audio]|e] w1] eqn:E.
  + destruct (IH w1) as (out & w' & Hl & Hn). rewrite Hl.
    exists (AudioOut rate audio :: out), w'. simpl. rewrite Hn. split; reflexivity.
  + rewrite (generate_speech_raises_exception text w w1 e RO E).
    destruct (IH w1) as (out & w' & Hl & Hn). rewrite Hl.
    exists (ErrorShown (str e) :: out), w'. simpl. rewrite Hn. split; reflexivity.
Qed.

(** X7: every response the request loop sends is either audio at rate
    24000 or an error whose text starts with "Failed to generate speech: ". *)
Theorem launch_responses_well_formed (requests : list string) (w : St) :
  Forall well_formed (launch speech requests w).1.1.
Proof.
revert w. induction requests as [|text later IH]; intros w; simpl.
- constructor.
- destruct (generate_speech_trichotomy text w)
    as [(a & x & H) | [(s & x & H) | (e0 & x & He0 & H)]]; rewrite H.
  + specialize (IH (with_ext w x)).
    destruct (launch speech later (with_ext w x)) as [[out stop] w'']. simpl in *.
    constructor; [reflexivity | exact IH].
  + simpl.
    match goal with |- context [launch speech later ?v] => specialize (IH v);
      destruct (launch speech later v) as [[out stop] w''] end.
    simpl in *. constructor; [exists s; reflexivity | exact IH].
  + rewrite He0. constructor.
Qed.

(** X8: the request loop prints one line for every error it shows and
    none for a request it answers with audio. *)
Theorem launch_prints_one_line_per_error (requests : list string) (w : St) :
  let '(out, _, w') := launch speech requests w in
  length (console w') = (length (console w) + errors_shown out)%nat.
Proof.
revert w. induction requests as [|text later IH]; intros w; simpl.
- lia.
- destruct (generate_speech_trichotomy text w)
    as [(a & x & H) | [(s & x & H) | (e0 & x & He0 & H)]]; rewrite H.
  + specialize (IH (with_ext w x)).
    destruct (launch speech later (with_ext w x)) as [[out stop] w'']. simpl in *.
    exact IH.
  + simpl.
    match goal with |- context [launch speech later ?v] => specialize (IH v);
      destruct (launch speech later v) as [[out stop] w''] end.
    simpl in *. rewrite IH, length_app. simpl. lia.
  + rewrite He0. simpl. lia.
Qed.

(** X9: once the constructor has returned a handle, a first request for
    which the pipeline yields a segment is answered with that segment's
    audio at rate 24000; the run has printed the three start-up lines and
    the server stays up. *)
Theorem run_app_serves_first_request (text : string) (w : St)
    (p : Handle) (g : Generator X (Segment Audio)) (x1 x2 x3 : X)
    (graphemes phonemes : string) (audio : Audio)
    (rest : Generator X (Segment Audio)) :
  KPipeline "en" (ext w) = (Ok p, x1) ->
  KPipeline_call p text "af_heart" 1 x1 = (Ok g, x2) ->
  resume g x2 = (Yield (graphemes, phonemes, audio) rest, x3) ->
  run [text] w
  = mkRun None
      (console w ++ ["Using device: " +:+ torch_device cuda_is_available (ext w);
                    "Loading Kokoro TTS model...";
                    "Model loaded successfully!"])
      [AudioOut 24000 audio].
Proof.
intros Hk Hc Hr. unfold run_app.
pose proof (startup_unfold _ _ cuda_is_available KPipeline w) as Hs.
simpl in Hs. rewrite Hs, Hk. simpl.
rewrite generate_speech_unfold.
match goal with |- context [first_segment KPipeline_call text ?v] =>
  pose proof (first_segment_cases_any _ _ _ KPipeline_call text v) as H end.
simpl in H. rewrite Hc in H. rewrite Hr in H. rewrite H. simpl.
rewrite <- app_assoc. reflexivity.
Qed.

(** X10: when the constructor is left by an exception that is not an
    [Exception], the [except] branch is skipped: no error line is printed,
    the exception ends the process, and no request is served. *)
Theorem startup_interrupt_is_not_caught (w : St) (e : PyExc) (x' : X) :
  KPipeline "en" (ext w) = (Raise e, x') ->
  isinstance_Exception e = false ->
  forall requests,
    run requests w
    = mkRun (Some (process_end (@Raise unit e)))
        (console w ++ ["Using device: " +:+ torch_device cuda_is_available (ext w);
                      "Loading Kokoro TTS model..."])
        [].
Proof.
intros Hk He requests. unfold run_app.
pose proof (startup_unfold _ _ cuda_is_available KPipeline w) as Hs.
simpl in Hs. rewrite Hs, Hk, He. reflexivity.
Qed.

End AppCover.

(** ** More about the weight fetcher *)

Section FetchCover.
Variable X : Type.
Variable dotenv_values : X -> gmap string string.
Variable snapshot_download :
  string -> string -> option string -> X -> Res string * X.

Local Abbreviation St := (DownloadWeights.St X).
Local Abbreviation fetch := (download_model_weights snapshot_download).
Local Abbreviation script := (main dotenv_values snapshot_download).
Local Abbreviation downloading :=
  ("Downloading Kokoro TTS model weights from hexgrad/Kokoro-82M...").

(** The environment in which line 40 runs. *)
Local Abbreviation merged w := (environ w ∪ dotenv_values (ext w)).

(** X11: the line "Model weights downloaded successfully!" is among the
    lines a fetch prints exactly when [snapshot_download] returned. *)
Theorem success_line_iff_downloaded (token : option string) (w : St) :
  exists added,
    console (snd (fetch token w)) = (console w ++ added)%list
    /\ (In "Model weights downloaded successfully!" added
        <-> download_succeeds snapshot_download token w).
Proof.
rewrite download_model_weights_unfold. unfold download_succeeds.
destruct (snapshot_download MODEL_ID "./weights" token (ext w)) as [[path|e] x'].
- eexists. split; [reflexivity|]. split; [eauto | intros _; simpl; auto].
- destruct (isinstance_Exception e); (eexists; split; [reflexivity|]); split.
  + simpl. intros [H|[H|[H|[H|[]]]]]; discriminate H.
  + intros (p0 & x0 & H). discriminate H.
  + simpl. intros [H|[]]. discriminate H.
  + intros (p0 & x0 & H). discriminate H.
Qed.

(** X12: an exception from the download that is not an [Exception] leaves
    the script as it is: only the first line has been printed, none of the
    lines about the token. *)
Theorem download_interrupt_ends_script (args_token : option string) (w : St)
    (e : PyExc) (x' : X) :
  snapshot_download MODEL_ID "./weights"
    (token_of args_token (merged w)) (ext w) = (Raise e, x') ->
  isinstance_Exception e = false ->
  script args_token w
  = (Raise e, mkWorld (console w ++ [downloading]) (merged w) (globals w) x').
Proof.
intros Hd He.
pose proof (main_unfold _ dotenv_values snapshot_download args_token w) as Hm.
simpl in Hm. rewrite Hm, download_model_weights_unfold. simpl.
rewrite Hd, He. reflexivity.
Qed.

(** X14: a token given with the flag, unless it is empty, is the token
    the fetch gets, whatever the environment and the .env file hold. *)
Theorem main_uses_flag_token (args_token : option string) (w : St) :
  truthy args_token = true ->
  script args_token w
  = fetch args_token (mkWorld (console w) (merged w) (globals w) (ext w)).
Proof.
intros H.
pose proof (main_unfold _ dotenv_values snapshot_download args_token w) as Hm.
simpl in Hm. rewrite Hm, token_of_command_line by exact H. reflexivity.
Qed.

(** X15: without a usable flag (none, or an empty one), the fetch gets
    the value of HUGGING_FACE_TOKEN if that is set and not empty, and
    otherwise whatever HUGGING_FACE_HUB_TOKEN holds: a token, the empty
    string, or nothing. *)
Theorem main_environment_order (args_token : option string) (w : St) :
  truthy args_token = false ->
  script args_token w
  = fetch (if truthy (merged w !! HUGGING_FACE_TOKEN)
           then merged w !! HUGGING_FACE_TOKEN
           else merged w !! HUGGING_FACE_HUB_TOKEN)
      (mkWorld (console w) (merged w) (globals w) (ext w)).
Proof.
intros H.
pose proof (main_unfold _ dotenv_values snapshot_download args_token w) as Hm.
simpl in Hm. rewrite Hm. unfold token_of, py_or. rewrite H. reflexivity.
Qed.

(** X16: the script asks for one repository and one destination only: two
    download functions that agree on "hexgrad/Kokoro-82M" and "./weights"
    cannot be told apart through it. *)
Theorem main_fixed_repository
    (snapshot_download' : string -> string -> option string -> X -> Res string * X) :
  (forall token x,
      snapshot_download' MODEL_ID "./weights" token x
      = snapshot_download MODEL_ID "./weights" token x) ->
  forall (args_token : option string) (w : St),
    main dotenv_values snapshot_download' args_token w = script args_token w.
Proof.
intros H args_token w.
pose proof (main_unfold _ dotenv_values snapshot_download args_token w) as Hm.
pose proof (main_unfold _ dotenv_values snapshot_download' args_token w) as Hm'.
simpl in Hm, Hm'. rewrite Hm, Hm', !download_model_weights_unfold. simpl.
rewrite H. reflexivity.
Qed.

(** X17: the script leaves the environment of the process extended by
    the .env file: a variable the process had keeps its value, and one it
    did not have gets the value of the file, if the file has one. *)
Theorem main_extends_environment (args_token : option string) (w : St) :
  (forall k v,
      environ w !! k = Some v ->
      environ (snd (script args_token w)) !! k = Some v)
  /\ (forall k,
        environ w !! k = None ->
        environ (snd (script args_token w)) !! k = dotenv_values (ext w) !! k).
Proof.
assert (environ (snd (script args_token w)) = merged w) as E.
{ pose proof (main_unfold _ dotenv_values snapshot_download args_token w) as Hm.
  simpl in Hm. rewrite Hm, download_model_weights_unfold. simpl.
  destruct (snapshot_download _ _ _ _) as [[path|e0] x']; [reflexivity|].
  destruct (isinstance_Exception e0); reflexivity. }
rewrite E. split.
- intros k v Hk. apply lookup_union_Some_l. exact Hk.
- intros k Hk. apply lookup_union_r. exact Hk.
Qed.

End FetchCover.

(** *** The further statements at concrete inputs *)

Lemma bench_raises_only_exceptions :
  raises_only_exceptions (Bench.KPipeline_call true).
Proof.
intros p text x. unfold Bench.KPipeline_call, Bench.segments.
destruct (String.prefix "!" text); [reflexivity|].
destruct (String.eqb text EmptyString); exact I.
Qed.

Lemma generate_speech_raises_only_gradio_error_witness :
  exists s,
    Exc GradioError "Failed to generate speech: model error"
    = Exc GradioError ("Failed to generate speech: " +:+ s)
    /\ console (snd (generate_speech (Bench.KPipeline_call true) "!" Bench.ready))
       = (console Bench.ready ++ ["Error generating speech: " +:+ s])%list.
Proof.
exact (generate_speech_raises_only_gradio_error _ _ _ (Bench.KPipeline_call true)
         "!" Bench.ready
         (snd (generate_speech (Bench.KPipeline_call true) "!" Bench.ready))
         (Exc GradioError "Failed to generate speech: model error")
         eq_refl eq_refl).
Defined.

Lemma generate_speech_success_is_silent_witness :
  snd (generate_speech (Bench.KPipeline_call true) Bench.hello Bench.ready)
  = with_ext Bench.ready
      [Bench.Called Bench.hello "af_heart" 1; Bench.Produced Bench.hello].
Proof.
exact (generate_speech_success_is_silent _ _ _ (Bench.KPipeline_call true)
         Bench.hello Bench.ready
         (snd (generate_speech (Bench.KPipeline_call true) Bench.hello Bench.ready))
         (24000, [1; 2; 3]) eq_refl).
Defined.


Lemma generate_speech_unbound_pipeline_witness :
  generate_speech (Bench.KPipeline_call true) Bench.hello Bench.fresh
  = (Raise (Exc GradioError
              "Failed to generate speech: name 'pipeline' is not defined"),
     with_console Bench.fresh
       ["Error generating speech: name 'pipeline' is not defined"]).
Proof.
exact (generate_speech_unbound_pipeline _ _ _ (Bench.KPipeline_call true)
         Bench.hello Bench.fresh eq_refl).
Defined.

Lemma launch_answers_every_request_witness :
  exists out w',
    launch (generate_speech (Bench.KPipeline_call true))
      ["!"; Bench.hello; EmptyString] Bench.ready = (out, None, w')
    /\ length out = 3%nat.
Proof.
exact (launch_answers_every_request _ _ _ (Bench.KPipeline_call true)
         bench_raises_only_exceptions ["!"; Bench.hello; EmptyString] Bench.ready).
Defined.

Lemma run_app_serves_first_request_witness :
  run_app Bench.cuda_is_available Bench.KPipeline (Bench.KPipeline_call false)
    [Bench.hello] Bench.fresh
  = mkRun None
      ["Using device: cpu"; "Loading Kokoro TTS model...";
       "Model loaded successfully!"]
      [AudioOut 24000 [1; 2; 3]].
Proof.
exact (run_app_serves_first_request _ _ _ (Bench.KPipeline_call false)
         Bench.cuda_is_available Bench.KPipeline Bench.hello Bench.fresh tt
         (Bench.gen_of false (Bench.segments Bench.hello "af_heart" 1))
         [] [] [] Bench.hello "af_heart" [1; 2; 3]
         (Bench.gen_of false [("more", "af_heart", [4])])
         eq_refl eq_refl eq_refl).
Defined.

Lemma startup_interrupt_is_not_caught_witness :
  run_app Bench.cuda_is_available KPipeline_interrupted (Bench.KPipeline_call false)
    [Bench.hello] Bench.fresh
  = mkRun (Some (Traceback (Exc KeyboardInterrupt EmptyString)))
      ["Using device: cpu"; "Loading Kokoro TTS model..."]
      [].
Proof.
exact (startup_interrupt_is_not_caught _ _ _ (Bench.KPipeline_call false)
         Bench.cuda_is_available KPipeline_interrupted Bench.fresh
         (Exc KeyboardInterrupt EmptyString) [] eq_refl eq_refl [Bench.hello]).
Defined.

Lemma download_interrupt_ends_script_witness :
  main dotenv snapshot_download_interrupted None
    (Bench.shell ∅ (Bench.gated "hf_good" ∅))
  = (Raise (Exc KeyboardInterrupt EmptyString),
     mkWorld ["Downloading Kokoro TTS model weights from hexgrad/Kokoro-82M..."]
       ∅ tt (Bench.gated "hf_good" ∅)).
Proof.
exact (download_interrupt_ends_script _ dotenv snapshot_download_interrupted None
         (Bench.shell ∅ (Bench.gated "hf_good" ∅))
         (Exc KeyboardInterrupt EmptyString) (Bench.gated "hf_good" ∅)
         eq_refl eq_refl).
Defined.

Lemma main_uses_flag_token_witness :
  let env : gmap string string := {[HUGGING_FACE_TOKEN := "hf_env"]} in
  let file : gmap string string := {[HUGGING_FACE_HUB_TOKEN := "hf_file"]} in
  let w := Bench.shell env (Bench.gated "hf_flag" file) in
  main dotenv mirror_snapshot_download (Some "hf_flag") w
  = download_model_weights mirror_snapshot_download (Some "hf_flag")
      (mkWorld [] (env ∪ file) tt (ext w)).
Proof.
intros env file w.
exact (main_uses_flag_token _ dotenv mirror_snapshot_download (Some "hf_flag") w
         eq_refl).
Defined.

Lemma main_environment_order_witness :
  let env : gmap string string := {[HUGGING_FACE_HUB_TOKEN := EmptyString]} in
  let w := Bench.shell env (Bench.gated "hf_good" ∅) in
  main dotenv mirror_snapshot_download None w
  = download_model_weights mirror_snapshot_download (Some EmptyString)
      (mkWorld [] (env ∪ ∅) tt (ext w)).
Proof.
intros env w.
exact (main_environment_order _ dotenv mirror_snapshot_download None w eq_refl).
Defined.

Lemma main_fixed_repository_witness :
  main dotenv snapshot_download_kokoro_only (Some "hf_good")
    (Bench.shell ∅ (Bench.gated "hf_good" ∅))
  = main dotenv mirror_snapshot_download (Some "hf_good")
      (Bench.shell ∅ (Bench.gated "hf_good" ∅)).
Proof.
apply (main_fixed_repository _ dotenv mirror_snapshot_download
         snapshot_download_kokoro_only).
intros token x. reflexivity.
Defined.
